(** * NeuralRadianceFieldPackedRenderer

    A shallow embedding of
    [wisp/renderer/core/renderers/radiance_pipeline_renderer.py]: the
    renderer adapter that batches rays, forwards them to a tracer,
    reshapes and rescales the render buffer, and keeps a small last-state
    cache to decide whether a frame has to be redrawn.

    Python objects are records, [None]-able attributes are [option]s, the
    [_last_state] dict is a [gmap] from key strings to Python values, and
    an exception raised by a call is the result [None]. *)

From Stdlib Require Import ZArith SpecFloat.
From stdpp Require Import base option list gmap strings.
From Equations Require Import Equations.

Local Open Scope Z_scope.

(** ** Python values and floats *)

(** The values the renderer stores in [_last_state]: a step count (an
    [int]), a channel set (a [set] of names) or [None]. *)
Inductive pyval : Type :=
  | PyNone
  | PyInt (n : Z)
  | PySet (s : gset string).

#[global] Instance pyval_eq_dec : EqDecision pyval.
Proof. solve_decision. Defined.

(** [d.get(k, default)]. *)
Definition dict_get (d : gmap string pyval) (k : string) (dflt : pyval) : pyval :=
  default dflt (d !! k).

(** [a < n] for an [int] [n]: a [TypeError] unless [a] is an [int]. *)
Definition py_lt_int (a : pyval) (n : Z) : option bool :=
  match a with
  | PyInt x => Some (bool_decide (x < n))
  | PyNone | PySet _ => None
  end.

(** [a != b]: never raises on these values. *)
Definition py_ne (a b : pyval) : bool := bool_decide (a ≠ b).

(** An attribute holding a channel set or [None], as a Python value. *)
Definition chan_val (c : option (gset string)) : pyval :=
  match c with
  | Some s => PySet s
  | None => PyNone
  end.

(** Python floats are IEEE 754 binary64 numbers; [==] on them is
    [SFeqb]: the two zeros are equal, a NaN equals nothing. *)
Definition py_zero : spec_float := S754_zero false.

(** [c == (0.0, 0.0, 0.0)] for a tuple [c] of three floats: component
    by component. *)
Definition tuple3_eq (c d : spec_float * spec_float * spec_float) : bool :=
  let '(c1, c2, c3) := c in
  let '(d1, d2, d3) := d in
  SFeqb c1 d1 && SFeqb c2 d2 && SFeqb c3 d3.

(** ** The frame payload *)

Module Camera.
Record t : Type := mk {
  width : Z;
  height : Z;
  far : spec_float
}.
End Camera.

Module FramePayload.
Record t : Type := mk {
  render_res_x : Z;
  render_res_y : Z;
  camera : Camera.t;
  clear_color : spec_float * spec_float * spec_float;
  interactive_mode : bool;
  channels : gset string
}.
End FramePayload.

(** ** Collaborators *)

(** The class of [nef.grid.blas], as far as [isinstance] tells. *)
Inductive accel_class : Type :=
  | AxisAlignedBBoxAS
  | OctreeAS
  | OtherAS.

(** The layer painters the renderer can create. *)
Inductive Datalayers : Type :=
  | AABBDatalayers
  | OctreeDatalayers.

Module NeuralField.
(** [blas] is [None] when [nef.grid] has no attribute [blas]. *)
Record t (Blas Model : Type) : Type := mk {
  blas : option Blas;
  model : Model
}.
Arguments mk {Blas Model}.
Arguments blas {Blas Model}.
Arguments model {Blas Model}.
End NeuralField.

Module Tracer.
(** A tracer object: its [num_steps] attribute and the rest of it. *)
Record t (Core : Type) : Type := mk {
  num_steps : Z;
  core : Core
}.
Arguments mk {Core}.
Arguments num_steps {Core}.
Arguments core {Core}.
End Tracer.

Module TracerCall.
(** The keyword arguments of one tracer invocation in [render]. *)
Record t (Ray : Type) : Type := mk {
  channels : option (gset string);
  rays : list Ray;
  lod_idx : option Z;
  raymarch_type : string;
  num_steps : Z;
  bg_color : string
}.
Arguments mk {Ray}.
Arguments channels {Ray}.
Arguments rays {Ray}.
Arguments lod_idx {Ray}.
Arguments raymarch_type {Ray}.
Arguments num_steps {Ray}.
Arguments bg_color {Ray}.
End TracerCall.

(** Modelled from the spec: [RenderBuffer] of [wisp.core] is not part of
    the sources. The spec's render buffer is an "accumulator of per-pixel
    outputs", "created empty, filled incrementally per ray sub-batch,
    reshaped/rescaled once"; shape mismatches "surface as whatever the
    collaborator raises". The interface lists the operations [render]
    uses; [rb_spatial] reads the two leading (spatial) dimensions of a
    buffer, when it has them. *)
Class RenderBufferOps (RB : Type) : Type := {
  rb_new : RB;
  rb_add : RB → RB → RB;
  rb_reshape : Z → Z → RB → option RB;
  rb_scale : Z → Z → RB → option RB;
  rb_spatial : RB → option (Z * Z)
}.

(** Modelled from the spec: what [reshape] and [scale] of the missing
    [RenderBuffer] return. [reshape(h, w, -1)] "reshapes to the internal
    render resolution" and [scale(size=(h, w))] "rescales to the output
    resolution": when they return, the buffer has these spatial
    dimensions. *)
Class RenderBufferShapes (RB : Type) `{!RenderBufferOps RB} : Prop := {
  rb_reshape_spatial h w rb rb' :
    rb_reshape h w rb = Some rb' → rb_spatial rb' = Some (h, w);
  rb_scale_spatial h w rb rb' :
    rb_scale h w rb = Some rb' → rb_spatial rb' = Some (h, w)
}.

(** ** Splitting the rays *)

(** Consecutive chunks of [S n] elements, the last one possibly
    shorter. *)
Equations? chunks {A : Type} (n : nat) (l : list A) : list (list A)
  by wf (length l) lt :=
  chunks n [] := [];
  chunks n (x :: l) := (x :: take n l) :: chunks n (drop n l).
Proof. rewrite length_drop. simpl. lia. Qed.

(** Modelled from the spec: [Rays.split] of [wisp.core] is not part of
    the sources. [render] "partitions rays into fixed-size batches":
    consecutive batches of [batch_size] rays, the last one with what is
    left. A batch size that is not positive raises. *)
Definition Rays_split {Ray : Type} (rays : list Ray) (batch_size : Z)
  : option (list (list Ray)) :=
  if decide (0 < batch_size) then Some (chunks (Z.to_nat batch_size - 1)%nat rays)
  else None.

(** ** The renderer *)

(** What the renderer reads of the state its base class
    [RayTracedRenderer] keeps: the neural field and the layer painter. *)
Record base_state (Blas Model BaseRest : Type) : Type := mk_base {
  nef : NeuralField.t Blas Model;
  layers_painter : option Datalayers;
  base_rest : BaseRest
}.
Arguments mk_base {Blas Model BaseRest}.
Arguments nef {Blas Model BaseRest}.
Arguments layers_painter {Blas Model BaseRest}.
Arguments base_rest {Blas Model BaseRest}.

(** The code of the repository the renderer calls and that is not part
    of the sources: the base class, the layer painters, the tracer. Each
    call can raise, which is the result [None]: the two painter methods,
    the base constructor, [PackedRFTracer()] (the instance it builds, or
    [None]) and a tracer invocation [tracer_forward]. *)
Class Collaborators (Ray Blas Model Core BaseRest Prims RB : Type) : Type := {
  blas_class : Blas → accel_class;
  painter_needs_redraw : Datalayers → Blas → option bool;
  painter_regenerate : Datalayers → Blas → option (gmap string Prims);
  super_init :
    NeuralField.t Blas Model → list pyval → gmap string pyval →
    option (base_state Blas Model BaseRest);
  super_pre_render :
    FramePayload.t → base_state Blas Model BaseRest →
    base_state Blas Model BaseRest;
  PackedRFTracer : option (Tracer.t Core);
  tracer_forward :
    Tracer.t Core → NeuralField.t Blas Model → TracerCall.t Ray → option RB
}.

Section Renderer.
Context {Ray Blas Model Core BaseRest Prims RB : Type}.
Context `{!RenderBufferOps RB}.
Context `{!Collaborators Ray Blas Model Core BaseRest Prims RB}.

Record renderer : Type := mk_renderer {
  base : base_state Blas Model BaseRest;
  batch_size : Z;
  num_steps : Z;
  num_steps_movement : Z;
  raymarch_type : string;
  bg_color : string;
  tracer : Tracer.t Core;
  render_res_x : option Z;
  render_res_y : option Z;
  output_width : option Z;
  output_height : option Z;
  far_clipping : option spec_float;
  channels : option (gset string);
  _last_state : gmap string pyval;
  _data_layers : gmap string Prims
}.

(** The arguments of the constructor. [tracer_type], when given, is what
    the call [tracer_type()] gives: the instance it builds, or [None]
    when it raises; [args] and [kwargs] are the extra arguments handed on
    to the base class. *)
Record init_args : Type := mk_init_args {
  arg_nef : NeuralField.t Blas Model;
  arg_tracer_type : option (option (Tracer.t Core));
  arg_batch_size : Z;
  arg_num_steps : option Z;
  arg_min_dis : option spec_float;
  arg_raymarch_type : option string;
  arg_args : list pyval;
  arg_kwargs : gmap string pyval
}.

(** The default of the [batch_size] parameter, [2**14]. *)
Definition default_batch_size : Z := 2 ^ 14.

Definition create_layers_painter (nef : NeuralField.t Blas Model)
  : option Datalayers :=
  match NeuralField.blas nef with
  | None => None
  | Some b =>
      match blas_class b with
      | AxisAlignedBBoxAS => Some AABBDatalayers
      | OctreeAS => Some OctreeDatalayers
      | OtherAS => None
      end
  end.

(** [self.nef.grid.blas] raises when the grid has no [blas]; the
    painter's own call can raise too. *)
Definition needs_redraw (self : renderer) : option bool :=
  match layers_painter (base self) with
  | Some painter =>
      b ← NeuralField.blas (nef (base self)); painter_needs_redraw painter b
  | None => Some true
  end.

Definition regenerate_data_layers (self : renderer)
  : option (gmap string Prims) :=
  match layers_painter (base self) with
  | Some painter =>
      b ← NeuralField.blas (nef (base self)); painter_regenerate painter b
  | None => Some ∅
  end.

Definition set_data_layers (layers : gmap string Prims) (self : renderer)
  : renderer :=
  {| base := base self;
     batch_size := batch_size self;
     num_steps := num_steps self;
     num_steps_movement := num_steps_movement self;
     raymarch_type := raymarch_type self;
     bg_color := bg_color self;
     tracer := tracer self;
     render_res_x := render_res_x self;
     render_res_y := render_res_y self;
     output_width := output_width self;
     output_height := output_height self;
     far_clipping := far_clipping self;
     channels := channels self;
     _last_state := _last_state self;
     _data_layers := layers |}.

Definition __init__ (a : init_args) : option renderer :=
  b ← super_init (arg_nef a) (arg_args a) (arg_kwargs a);
  let num_steps := default 2 (arg_num_steps a) in
  t ← default PackedRFTracer (arg_tracer_type a);
  let self :=
    {| base := b;
       batch_size := arg_batch_size a;
       num_steps := num_steps;
       num_steps_movement := Z.max (num_steps / 4) 1;
       raymarch_type := default "voxel"%string (arg_raymarch_type a);
       bg_color := "black";
       tracer := t;
       render_res_x := None;
       render_res_y := None;
       output_width := None;
       output_height := None;
       far_clipping := None;
       channels := None;
       _last_state := ∅;
       _data_layers := ∅ |} in
  layers ← regenerate_data_layers self;
  Some (set_data_layers layers self).

Definition pre_render (self : renderer) (payload : FramePayload.t) : renderer :=
  {| base := super_pre_render payload (base self);
     batch_size := batch_size self;
     num_steps := num_steps self;
     num_steps_movement := num_steps_movement self;
     raymarch_type := raymarch_type self;
     bg_color :=
       if tuple3_eq (FramePayload.clear_color payload) (py_zero, py_zero, py_zero)
       then "black" else "white";
     tracer :=
       Tracer.mk
         (if FramePayload.interactive_mode payload
          then num_steps_movement self else num_steps self)
         (Tracer.core (tracer self));
     render_res_x := Some (FramePayload.render_res_x payload);
     render_res_y := Some (FramePayload.render_res_y payload);
     output_width := Some (Camera.width (FramePayload.camera payload));
     output_height := Some (Camera.height (FramePayload.camera payload));
     far_clipping := Some (Camera.far (FramePayload.camera payload));
     channels := Some (FramePayload.channels payload);
     _last_state := _last_state self;
     _data_layers := _data_layers self |}.

(** [or] evaluates its right operand only when the left one is false;
    the right operand never raises, so the result is the same. *)
Definition needs_refresh (self : renderer) (payload : FramePayload.t)
  : option bool :=
  lower ← py_lt_int (dict_get (_last_state self) "num_steps" (PyInt 0))
                    (num_steps self);
  Some (lower ||
        py_ne (dict_get (_last_state self) "channels" PyNone)
              (chan_val (channels self))).

(** A tracer invocation with other rays and the same other arguments. *)
Definition with_rays (c : TracerCall.t Ray) (ray_batch : list Ray)
  : TracerCall.t Ray :=
  {| TracerCall.channels := TracerCall.channels c;
     TracerCall.rays := ray_batch;
     TracerCall.lod_idx := TracerCall.lod_idx c;
     TracerCall.raymarch_type := TracerCall.raymarch_type c;
     TracerCall.num_steps := TracerCall.num_steps c;
     TracerCall.bg_color := TracerCall.bg_color c |}.

(** The arguments [render] calls the tracer with, for one batch. *)
Definition tracer_call (self : renderer) (ray_batch : list Ray)
  : TracerCall.t Ray :=
  {| TracerCall.channels := channels self;
     TracerCall.rays := ray_batch;
     TracerCall.lod_idx := None;
     TracerCall.raymarch_type := raymarch_type self;
     TracerCall.num_steps := num_steps self;
     TracerCall.bg_color := bg_color self |}.

(** The loop of [render]: [rb += self.tracer(...)] for each batch. The
    first component lists the tracer invocations made, in order; the
    loop stops at the first one that raises. *)
Fixpoint accumulate (self : renderer) (rb : RB) (batches : list (list Ray))
  : list (TracerCall.t Ray) * option RB :=
  match batches with
  | [] => ([], Some rb)
  | ray_batch :: rest =>
      let c := tracer_call self ray_batch in
      match tracer_forward (tracer self) (nef (base self)) c with
      | Some r =>
          let '(calls, res) := accumulate self (rb_add rb r) rest in
          (c :: calls, res)
      | None => ([c], None)
      end
  end.

(** [render] up to the end of its loop: the accumulated buffer before
    it is reshaped. *)
Definition render_batches (self : renderer) (rays : list Ray)
  : list (TracerCall.t Ray) * option RB :=
  match Rays_split rays (batch_size self) with
  | Some batches => accumulate self rb_new batches
  | None => ([], None)
  end.

(** The rest of [render]. A resolution that is still [None] makes
    [reshape], or [scale], raise. *)
Definition reshape_rescale (self : renderer) (rb : RB) : option RB :=
  ry ← render_res_y self;
  rx ← render_res_x self;
  rb ← rb_reshape ry rx rb;
  if decide (render_res_x self ≠ output_width self ∨
             render_res_y self ≠ output_height self)
  then
    oh ← output_height self;
    ow ← output_width self;
    rb_scale oh ow rb
  else Some rb.

Definition render (self : renderer) (rays : list Ray) : option RB :=
  rb ← (render_batches self rays).2;
  reshape_rescale self rb.

(** The tracer invocations of one [render] call. *)
Definition tracer_calls (self : renderer) (rays : list Ray)
  : list (TracerCall.t Ray) :=
  (render_batches self rays).1.

Definition post_render (self : renderer) : renderer :=
  {| base := base self;
     batch_size := batch_size self;
     num_steps := num_steps self;
     num_steps_movement := num_steps_movement self;
     raymarch_type := raymarch_type self;
     bg_color := bg_color self;
     tracer := tracer self;
     render_res_x := render_res_x self;
     render_res_y := render_res_y self;
     output_width := output_width self;
     output_height := output_height self;
     far_clipping := far_clipping self;
     channels := channels self;
     _last_state :=
       <["channels" := chan_val (channels self)]>
         (<["num_steps" := PyInt (Tracer.num_steps (tracer self))]>
            (_last_state self));
     _data_layers := _data_layers self |}.

(** [render] with another batch size. *)
Definition with_batch_size (n : Z) (self : renderer) : renderer :=
  {| base := base self;
     batch_size := n;
     num_steps := num_steps self;
     num_steps_movement := num_steps_movement self;
     raymarch_type := raymarch_type self;
     bg_color := bg_color self;
     tracer := tracer self;
     render_res_x := render_res_x self;
     render_res_y := render_res_y self;
     output_width := output_width self;
     output_height := output_height self;
     far_clipping := far_clipping self;
     channels := channels self;
     _last_state := _last_state self;
     _data_layers := _data_layers self |}.

(** The step count the last-state cache holds can be compared with an
    [int]: it is absent or an [int]. *)
Definition cache_typed (d : gmap string pyval) : Prop :=
  match d !! "num_steps" with
  | None | Some (PyInt _) => True
  | Some _ => False
  end.

End Renderer.

(** ** A reference instance of the collaborators *)

(** Modelled from the spec: a [RenderBuffer] with one output per ray. The
    spec's buffer is an "accumulator of per-pixel outputs (hit flag,
    channel values)", "created empty, filled incrementally per ray
    sub-batch". [pixels] are the outputs in ray order; [dims] is [None]
    while the buffer is flat and the two spatial dimensions once it is
    reshaped. *)
Record flat_buffer : Type := mk_flat {
  pixels : list Z;
  dims : option (Z * Z)
}.

Definition flat_new : flat_buffer := {| pixels := []; dims := None |}.

Definition flat_add (a b : flat_buffer) : flat_buffer :=
  {| pixels := pixels a ++ pixels b; dims := None |}.

(** [reshape(h, w, -1)]: a shape mismatch raises. *)
Definition flat_reshape (h w : Z) (rb : flat_buffer) : option flat_buffer :=
  if decide (0 < h ∧ 0 < w ∧ h * w = Z.of_nat (length (pixels rb)))
  then Some {| pixels := pixels rb; dims := Some (h, w) |}
  else None.

(** The image of [h] by [w] pixels that takes pixel [(i, j)] from the
    source pixel nearest to it. *)
Definition resample (h0 w0 h w : Z) (px : list Z) : list Z :=
  i ← seqZ 0 h;
  j ← seqZ 0 w;
  [default 0 (px !! Z.to_nat ((i * h0 / h) * w0 + j * w0 / w))].

(** [scale(size=(h, w))]: only a reshaped buffer can be scaled. *)
Definition flat_scale (h w : Z) (rb : flat_buffer) : option flat_buffer :=
  match dims rb with
  | Some (h0, w0) =>
      if decide (0 < h ∧ 0 < w)
      then Some {| pixels := resample h0 w0 h w (pixels rb); dims := Some (h, w) |}
      else None
  | None => None
  end.

#[global] Instance flat_buffer_ops : RenderBufferOps flat_buffer := {|
  rb_new := flat_new;
  rb_add := flat_add;
  rb_reshape := flat_reshape;
  rb_scale := flat_scale;
  rb_spatial := dims
|}.

(** Modelled from the spec: the tracer is "a tracer callable taking
    (model, channels, rays, batch index, marching policy, step count,
    background color) and returning a partial render buffer". Here a ray
    is a number and its output is the ray times the step count passed. *)
Definition flat_forward (c : TracerCall.t Z) : option flat_buffer :=
  Some {| pixels := (λ ray, ray * TracerCall.num_steps c) <$> TracerCall.rays c;
          dims := None |}.

(** A base class that keeps the field and picks the painter by the class
    of the acceleration structure, whatever the extra arguments. *)
Definition plain_super_init (n : NeuralField.t accel_class ())
  (args : list pyval) (kwargs : gmap string pyval)
  : option (base_state accel_class () ()) :=
  Some {| nef := n;
          layers_painter :=
            match NeuralField.blas n with
            | Some AxisAlignedBBoxAS => Some AABBDatalayers
            | Some OctreeAS => Some OctreeDatalayers
            | Some OtherAS | None => None
            end;
          base_rest := () |}.

#[global] Instance plain_collaborators
  : Collaborators Z accel_class () () () () flat_buffer := {|
  blas_class := id;
  painter_needs_redraw := λ _ _, Some false;
  painter_regenerate := λ _ _, Some ∅;
  super_init := plain_super_init;
  super_pre_render := λ _ b, b;
  PackedRFTracer := Some (Tracer.mk 64 ());
  tracer_forward := λ _ _ c, flat_forward c
|}.

Definition plain_nef : NeuralField.t accel_class () :=
  NeuralField.mk (Some OctreeAS) ().

(** The constructor called with the field alone: every default. *)
Definition plain_args : @init_args accel_class () () :=
  {| arg_nef := plain_nef;
     arg_tracer_type := None;
     arg_batch_size := default_batch_size;
     arg_num_steps := None;
     arg_min_dis := None;
     arg_raymarch_type := None;
     arg_args := [];
     arg_kwargs := ∅ |}.

(** A frame of 2 by 2 pixels rendered at 2 by 2. *)
Definition small_frame (interactive : bool) (chans : gset string)
  : FramePayload.t :=
  {| FramePayload.render_res_x := 2;
     FramePayload.render_res_y := 2;
     FramePayload.camera := Camera.mk 2 2 (S754_zero false);
     FramePayload.clear_color := (py_zero, py_zero, py_zero);
     FramePayload.interactive_mode := interactive;
     FramePayload.channels := chans |}.

(** The renderer the default constructor call builds. *)
Definition plain_self : @renderer accel_class () () () () :=
  {| base := mk_base plain_nef (Some OctreeDatalayers) ();
     batch_size := 16384;
     num_steps := 2;
     num_steps_movement := 1;
     raymarch_type := "voxel";
     bg_color := "black";
     tracer := Tracer.mk 64 ();
     render_res_x := None;
     render_res_y := None;
     output_width := None;
     output_height := None;
     far_clipping := None;
     channels := None;
     _last_state := ∅;
     _data_layers := ∅ |}.

(** A constructor call with eight steps, a tracer type whose instances
    start with 64 steps, and resolutions among the keyword arguments that
    fit no frame. *)
Definition odd_args : @init_args accel_class () () :=
  {| arg_nef := plain_nef;
     arg_tracer_type := Some (Some (Tracer.mk 64 ()));
     arg_batch_size := default_batch_size;
     arg_num_steps := Some 8;
     arg_min_dis := None;
     arg_raymarch_type := None;
     arg_args := [];
     arg_kwargs :=
       <["render_res_x" := PyInt 0]>
         (<["render_res_y" := PyInt (-5)]>
            (<["output_width" := PyInt 7]>
               (<["output_height" := PyInt 3]> ∅))) |}.

(** A frame rendered at 2 by 2 pixels for an output of 3 by 1. *)
Definition wide_frame : FramePayload.t :=
  {| FramePayload.render_res_x := 2;
     FramePayload.render_res_y := 2;
     FramePayload.camera := Camera.mk 3 1 (S754_zero false);
     FramePayload.clear_color := (S754_zero true, py_zero, py_zero);
     FramePayload.interactive_mode := true;
     FramePayload.channels := {["rgb"%string]} |}.


(** Modelled from the spec: a [RenderBuffer] that only counts. The
    spec's "render buffer accumulation is associative/commutative across
    batches" holds of it: a buffer is a number and accumulation is the
    sum. It has no spatial dimensions. *)
Definition count_buffer_ops : RenderBufferOps Z :=
  {| rb_new := 0;
     rb_add := Z.add;
     rb_reshape := λ _ _ rb, Some rb;
     rb_scale := λ _ _ rb, Some rb;
     rb_spatial := λ _, None |}.

(** The reference collaborators with a tracer that returns the buffer 1
    for every batch, whatever its rays. *)
Definition constant_collaborators
  : Collaborators Z accel_class () () () () Z :=
  {| blas_class := id;
     painter_needs_redraw := λ _ _, Some false;
     painter_regenerate := λ _ _, Some ∅;
     super_init := plain_super_init;
     super_pre_render := λ _ b, b;
     PackedRFTracer := Some (Tracer.mk 64 ());
     tracer_forward := λ _ _ _, Some 1 |}.

(** The renderers the lifecycle calls can produce from one constructor
    call: [render] and [needs_refresh] leave the renderer as it is. *)
Inductive reachable {Ray Blas Model Core BaseRest Prims RB : Type}
  `{!Collaborators Ray Blas Model Core BaseRest Prims RB}
  (a : @init_args Blas Model Core)
  : @renderer Blas Model Core BaseRest Prims → Prop :=
  | reach_init r : __init__ a = Some r → reachable a r
  | reach_pre_render r payload :
      reachable a r → reachable a (pre_render r payload)
  | reach_post_render r : reachable a r → reachable a (post_render r).

(** * Properties *)

(** ** Floats and Python values *)

Lemma SFeqb_zero (x : spec_float) :
  SFeqb x py_zero = true ↔ ∃ s, x = S754_zero s.
Proof.
  destruct x as [s|s| |s m e]; unfold SFeqb, py_zero; simpl.
  - split; [eauto | done].
  - split; [by destruct s | by intros [? ?]].
  - split; [done | by intros [? ?]].
  - split; [by destruct s | by intros [? ?]].
Qed.

Lemma tuple3_eq_zero (c : spec_float * spec_float * spec_float) :
  tuple3_eq c (py_zero, py_zero, py_zero) = true ↔
  ∃ s1 s2 s3, c = (S754_zero s1, S754_zero s2, S754_zero s3).
Proof.
  destruct c as [[c1 c2] c3]. unfold tuple3_eq.
  rewrite !andb_true_iff, !SFeqb_zero. split.
  - intros [[[s1 ->] [s2 ->]] [s3 ->]]. by eexists _, _, _.
  - intros (s1 & s2 & s3 & [= -> -> ->]). repeat split; by eexists.
Qed.

Lemma cache_typed_cases (d : gmap string pyval) :
  cache_typed d ↔
  ∃ n, d !! "num_steps" = Some (PyInt n) ∨ (d !! "num_steps" = None ∧ n = 0).
Proof.
  unfold cache_typed. destruct (d !! "num_steps") as [[]|]; split; try done.
  - intros [n [?|[? _]]]; done.
  - eauto.
  - intros [n0 [?|[? _]]]; done.
  - eauto.
Qed.

(** ** Splitting *)

Section Chunks.
Context {A : Type}.
Implicit Types (l : list A) (n : nat).

Lemma chunks_concat n l : concat (chunks n l) = l.
Proof.
  funelim (chunks n l); simp chunks; [done|].
  simpl. rewrite H. by rewrite take_drop.
Qed.

Lemma chunks_lengths n l :
  Forall (λ b, (0 < length b ≤ S n)%nat) (chunks n l).
Proof.
  funelim (chunks n l); simp chunks; constructor; [|done].
  simpl. rewrite length_take. lia.
Qed.

Lemma chunks_single n l : l ≠ [] → (length l ≤ S n)%nat → chunks n l = [l].
Proof.
  destruct l as [|x l]; [done|]. intros _ Hlen. simpl in Hlen. simp chunks.
  rewrite take_ge, drop_ge by lia. by simp chunks.
Qed.

(** Every batch but the last one is full. *)
Lemma chunks_full n l bs b :
  chunks n l = bs ++ [b] → Forall (λ b', length b' = S n) bs.
Proof.
  revert bs. funelim (chunks n l); simp chunks; intros bs Hbs.
  - by destruct bs.
  - destruct bs as [|b0 bs]; [constructor|].
    simpl in Hbs. injection Hbs as <- Hrest.
    assert (drop n l ≠ []) as Hne.
    { intros Hnil. rewrite Hnil in Hrest. simp chunks in Hrest. by destruct bs. }
    constructor; [|by eapply H].
    simpl. rewrite length_take. f_equal.
    destruct (decide (length l ≤ n)%nat) as [Hle|]; [|lia].
    by apply drop_ge in Hle.
Qed.

End Chunks.

Lemma Rays_split_spec {Ray : Type} (rays : list Ray) (n : Z) :
  0 < n →
  ∃ batches, Rays_split rays n = Some batches ∧
    concat batches = rays ∧
    Forall (λ b, (0 < length b ≤ Z.to_nat n)%nat) batches ∧
    ∀ full last, batches = full ++ [last] →
      Forall (λ b, length b = Z.to_nat n) full.
Proof.
  intros Hn. unfold Rays_split. rewrite decide_True by done.
  eexists; split; [done|]. split; [apply chunks_concat|]. split.
  - eapply Forall_impl; [apply chunks_lengths|]. simpl. lia.
  - intros full last Hfull. apply chunks_full in Hfull.
    eapply Forall_impl; [done|]. simpl. lia.
Qed.

(** ** The renderer *)

Section RendererProperties.
Context {Ray Blas Model Core BaseRest Prims RB : Type}.
Context `{!RenderBufferOps RB}.
Context `{!Collaborators Ray Blas Model Core BaseRest Prims RB}.
Implicit Types (self : @renderer Blas Model Core BaseRest Prims).
Implicit Types (payload : FramePayload.t) (rays : list Ray).
Implicit Types (a : @init_args Blas Model Core).

(** *** Construction *)

Lemma init_inv a r :
  __init__ a = Some r →
  ∃ b t layers,
    super_init (arg_nef a) (arg_args a) (arg_kwargs a) = Some b ∧
    default PackedRFTracer (arg_tracer_type a) = Some t ∧
    r = {| base := b;
           batch_size := arg_batch_size a;
           num_steps := default 2 (arg_num_steps a);
           num_steps_movement := Z.max (default 2 (arg_num_steps a) / 4) 1;
           raymarch_type := default "voxel"%string (arg_raymarch_type a);
           bg_color := "black";
           tracer := t;
           render_res_x := None;
           render_res_y := None;
           output_width := None;
           output_height := None;
           far_clipping := None;
           channels := None;
           _last_state := ∅;
           _data_layers := layers |}.
Proof.
  unfold __init__. intros Hinit.
  destruct (super_init _ _ _) as [b|]; [|done]. simpl in Hinit.
  destruct (default PackedRFTracer (arg_tracer_type a)) as [t|]; [|done].
  simpl in Hinit.
  match type of Hinit with
  | context [regenerate_data_layers ?s] =>
      destruct (regenerate_data_layers s) as [layers|]; [|done]
  end.
  simpl in Hinit. injection Hinit as <-. by exists b, t, layers.
Qed.


(** *** Invariants of the lifecycle *)

Lemma reachable_steps a self :
  reachable a self →
  num_steps self = default 2 (arg_num_steps a) ∧
  num_steps_movement self = Z.max (num_steps self / 4) 1 ∧
  batch_size self = arg_batch_size a ∧
  raymarch_type self = default "voxel"%string (arg_raymarch_type a).
Proof.
  induction 1 as [r Hr|r payload _ IH|r _ IH]; [|done..].
  apply init_inv in Hr as (b & t & layers & _ & _ & ->). done.
Qed.

Lemma reachable_cache_typed a self :
  reachable a self → cache_typed (_last_state self).
Proof.
  induction 1 as [r Hr|r payload _ IH|r _ IH]; [|done|].
  - apply init_inv in Hr as (b & t & layers & _ & _ & ->). done.
  - unfold cache_typed, post_render. simpl.
    rewrite lookup_insert_ne by done. by rewrite lookup_insert_eq.
Qed.

(** The cache holds nothing or both keys. *)
Lemma reachable_cache_keys a self :
  reachable a self →
  _last_state self = ∅ ∨
  ∃ n c, _last_state self =
         <["channels" := chan_val c]> (<["num_steps" := PyInt n]> ∅).
Proof.
  induction 1 as [r Hr|r payload _ IH|r _ IH]; [|done|].
  - apply init_inv in Hr as (b & t & layers & _ & _ & ->). by left.
  - right. exists (Tracer.num_steps (tracer r)), (channels r). simpl.
    destruct IH as [->|(n & c & ->)]; [done|].
    rewrite (insert_insert_ne _ "num_steps" "channels") by done.
    by rewrite !insert_insert_eq.
Qed.

(** *** The loop of [render] *)

Lemma accumulate_cons self rb (b : list Ray) (batches : list (list Ray)) :
  accumulate self rb (b :: batches) =
  match tracer_forward (tracer self) (nef (base self)) (tracer_call self b) with
  | Some r =>
      (tracer_call self b :: (accumulate self (rb_add rb r) batches).1,
       (accumulate self (rb_add rb r) batches).2)
  | None => ([tracer_call self b], None)
  end.
Proof.
  simpl. destruct (tracer_forward _ _ _) as [r|]; [|done].
  by destruct (accumulate self (rb_add rb r) batches).
Qed.

Lemma accumulate_calls_prefix self rb (batches : list (list Ray)) :
  TracerCall.rays <$> (accumulate self rb batches).1 `prefix_of` batches.
Proof.
  revert rb. induction batches as [|b batches IH]; intros rb; [done|].
  rewrite accumulate_cons. destruct (tracer_forward _ _ _) as [r|].
  - apply (prefix_cons b), IH.
  - apply (prefix_cons b), prefix_nil.
Qed.

Lemma accumulate_calls_all self rb (batches : list (list Ray)) :
  is_Some (accumulate self rb batches).2 →
  TracerCall.rays <$> (accumulate self rb batches).1 = batches.
Proof.
  revert rb. induction batches as [|b batches IH]; intros rb; [done|].
  rewrite accumulate_cons. destruct (tracer_forward _ _ _) as [r|].
  - intros Hres. cbn [fst snd] in *. rewrite fmap_cons. f_equal. by apply IH.
  - by intros [? ?].
Qed.

Lemma accumulate_calls_Forall (P : TracerCall.t Ray → Prop) self rb
    (batches : list (list Ray)) :
  (∀ b, P (tracer_call self b)) → Forall P (accumulate self rb batches).1.
Proof.
  intros HP. revert rb.
  induction batches as [|b batches IH]; intros rb; [constructor|].
  rewrite accumulate_cons. destruct (tracer_forward _ _ _) as [r|].
  - constructor; [apply HP|apply IH].
  - by repeat constructor.
Qed.

(** The batch size is no argument of the tracer. *)
Lemma accumulate_with_batch_size n self rb (batches : list (list Ray)) :
  accumulate (with_batch_size n self) rb batches = accumulate self rb batches.
Proof.
  revert rb. induction batches as [|b batches IH]; intros rb; [done|].
  rewrite !accumulate_cons.
  change (tracer_call (with_batch_size n self) b) with (tracer_call self b).
  change (tracer (with_batch_size n self)) with (tracer self).
  change (base (with_batch_size n self)) with (base self).
  destruct (tracer_forward _ _ _) as [r|]; [|done]. by rewrite IH.
Qed.

(** A tracer that treats a batch as its parts, and an associative
    accumulation: the batches of any split accumulate to what the tracer
    returns for all the rays at once. *)
Lemma accumulate_chunks self :
  (∀ x y z : RB, rb_add (rb_add x y) z = rb_add x (rb_add y z)) →
  (∀ b1 b2 : list Ray, b1 ≠ [] → b2 ≠ [] →
     tracer_forward (tracer self) (nef (base self)) (tracer_call self (b1 ++ b2)) =
     r1 ← tracer_forward (tracer self) (nef (base self)) (tracer_call self b1);
     r2 ← tracer_forward (tracer self) (nef (base self)) (tracer_call self b2);
     Some (rb_add r1 r2)) →
  ∀ n rays rb, rays ≠ [] →
    (accumulate self rb (chunks n rays)).2 =
    r ← tracer_forward (tracer self) (nef (base self)) (tracer_call self rays);
    Some (rb_add rb r).
Proof.
  intros Hassoc Hparts n rays.
  remember (length rays) as len eqn:Hlen. revert rays Hlen.
  induction (lt_wf len) as [len _ IH]. intros rays -> rb Hne.
  destruct rays as [|x rays]; [done|]. simp chunks. rewrite accumulate_cons.
  destruct (decide (drop n rays = [])) as [Hnil|Hrest].
  - assert (take n rays = rays) as ->.
    { rewrite <-(take_drop n rays) at 2. by rewrite Hnil, app_nil_r. }
    rewrite Hnil. simp chunks.
    by destruct (tracer_forward _ _ _).
  - replace (x :: rays) with ((x :: take n rays) ++ drop n rays)
      by (simpl; by rewrite take_drop).
    rewrite Hparts by done.
    destruct (tracer_forward _ _ (tracer_call self (x :: take n rays))) as [r1|];
      [|done].
    cbn [snd mbind option_bind].
    rewrite (IH (length (drop n rays))); [|rewrite length_drop; simpl; lia|done..].
    destruct (tracer_forward _ _ (tracer_call self (drop n rays))); [|done].
    simpl. by rewrite Hassoc.
Qed.

(** *** The claims on one renderer *)

(** C1: with the output resolution set to [(oh, ow)], the buffer
    [render] returns has the spatial dimensions [(oh, ow)], whatever the
    render resolution, the batch size and the rays: the accumulated
    buffer is reshaped to the render resolution and, when the two
    resolutions differ, scaled to the output resolution. *)
Theorem render_output_shape `{!RenderBufferShapes RB} self rays rb oh ow :
  output_height self = Some oh →
  output_width self = Some ow →
  render self rays = Some rb →
  rb_spatial rb = Some (oh, ow).
Proof.
  unfold render, reshape_rescale. intros Hh Hw Hr.
  destruct (render_batches self rays).2 as [acc|]; [|done]. simpl in Hr.
  destruct (render_res_y self) as [ry|] eqn:Hy; [|done].
  destruct (render_res_x self) as [rx|] eqn:Hx; [|done]. simpl in Hr.
  destruct (rb_reshape ry rx acc) as [rb1|] eqn:Hreshape; [|done].
  simpl in Hr. rewrite Hh, Hw in Hr.
  destruct (decide _) as [Hdiff|Hsame] in Hr.
  - simpl in Hr. by eapply rb_scale_spatial.
  - injection Hr as <-. apply rb_reshape_spatial in Hreshape.
    destruct (decide (rx = ow)) as [->|]; [|destruct Hsame; left; congruence].
    destruct (decide (ry = oh)) as [->|]; [|destruct Hsame; right; congruence].
    done.
Qed.

(** What [needs_refresh] returns on a cache whose step count is an
    [int] or absent. *)
Lemma needs_refresh_iff self payload n :
  _last_state self !! "num_steps" = Some (PyInt n) ∨
    (_last_state self !! "num_steps" = None ∧ n = 0) →
  ∃ b, needs_refresh self payload = Some b ∧
    (b = true ↔
     n < num_steps self ∨
     dict_get (_last_state self) "channels" PyNone ≠ chan_val (channels self)).
Proof.
  intros Hn. unfold needs_refresh.
  assert (dict_get (_last_state self) "num_steps" (PyInt 0) = PyInt n) as ->.
  { unfold dict_get. by destruct Hn as [->|[-> ->]]. }
  simpl. eexists; split; [done|].
  unfold py_ne. rewrite orb_true_iff, !bool_decide_eq_true. done.
Qed.

(** On a renderer the lifecycle can reach [needs_refresh] never
    raises. *)
Lemma reachable_needs_refresh a self payload :
  reachable a self → is_Some (needs_refresh self payload).
Proof.
  intros Hreach. apply reachable_cache_typed, cache_typed_cases in Hreach as [n Hn].
  destruct (needs_refresh_iff self payload n Hn) as (b & -> & _). by eexists.
Qed.

(** C2: with [n] the step count the last-state cache holds, 0 when it
    holds none, [needs_refresh] returns true if and only if [n] is
    strictly below [num_steps] or the channel set of the cache differs
    from the renderer's current one; after [pre_render payload] the
    current channel set is the one the payload requests. *)
Theorem needs_refresh_spec self payload n :
  _last_state self !! "num_steps" = Some (PyInt n) ∨
    (_last_state self !! "num_steps" = None ∧ n = 0) →
  (∃ b, needs_refresh self payload = Some b ∧
     (b = true ↔
      n < num_steps self ∨
      dict_get (_last_state self) "channels" PyNone ≠ chan_val (channels self))) ∧
  (∃ b, needs_refresh (pre_render self payload) payload = Some b ∧
     (b = true ↔
      n < num_steps self ∨
      dict_get (_last_state self) "channels" PyNone ≠
        PySet (FramePayload.channels payload))).
Proof.
  intros Hn. split; [by apply needs_refresh_iff|].
  by apply (needs_refresh_iff (pre_render self payload) payload n).
Qed.

(** C3, as the code has it: on a renderer the lifecycle can reach,
    [needs_refresh] after [pre_render] and [post_render] returns false
    for a static frame, and for an interactive frame returns true exactly
    when [num_steps] is 2 or more (the step count committed is the lower
    movement count); and it returns true as soon as [pre_render] has
    taken a channel set that differs from the one in the cache. *)
Theorem needs_refresh_after_cycle a self payload :
  reachable a self →
  needs_refresh (post_render (pre_render self payload)) payload =
    Some (FramePayload.interactive_mode payload &&
          bool_decide (2 ≤ num_steps self)) ∧
  (dict_get (_last_state self) "channels" PyNone ≠
     PySet (FramePayload.channels payload) →
   needs_refresh (pre_render self payload) payload = Some true).
Proof.
  intros Hreach.
  destruct (reachable_steps _ _ Hreach) as (_ & Hmove & _).
  pose proof (reachable_cache_typed _ _ Hreach) as Htyped. split.
  - unfold needs_refresh, dict_get, py_ne. simpl.
    rewrite lookup_insert_eq, lookup_insert_ne, lookup_insert_eq by done.
    simpl. f_equal.
    rewrite (bool_decide_eq_false_2 (_ ≠ _)) by (intros Hne; by apply Hne).
    rewrite orb_false_r.
    destruct (FramePayload.interactive_mode payload); simpl.
    + apply bool_decide_ext. rewrite Hmove.
      assert (2 ≤ num_steps self → num_steps self / 4 < num_steps self)
        by (intros; apply Z.div_lt; lia).
      lia.
    + apply bool_decide_eq_false_2. lia.
  - intros Hdiff. unfold needs_refresh, py_ne. simpl.
    apply cache_typed_cases in Htyped as [n Hn].
    assert (dict_get (_last_state self) "num_steps" (PyInt 0) = PyInt n) as ->.
    { unfold dict_get. by destruct Hn as [->|[-> ->]]. }
    simpl. by rewrite (bool_decide_eq_true_2 (_ ≠ _)), orb_true_r.
Qed.

(** C4, as the code has it: when accumulation is associative and the
    tracer returns, for a batch made of two parts, the accumulation of
    what it returns for each part (all other arguments equal), the
    buffer accumulated over the batches of size [n] is the one
    accumulated with a batch size [m] that holds all the rays: one tracer
    call on all the rays, added to the empty buffer. *)
Theorem batched_render_equivalent self rays n m :
  (∀ x y z : RB, rb_add (rb_add x y) z = rb_add x (rb_add y z)) →
  (∀ (c : TracerCall.t Ray) (b1 b2 : list Ray), b1 ≠ [] → b2 ≠ [] →
     tracer_forward (tracer self) (nef (base self)) (with_rays c (b1 ++ b2)) =
     r1 ← tracer_forward (tracer self) (nef (base self)) (with_rays c b1);
     r2 ← tracer_forward (tracer self) (nef (base self)) (with_rays c b2);
     Some (rb_add r1 r2)) →
  0 < n → 0 < m → (length rays ≤ Z.to_nat m)%nat →
  (render_batches (with_batch_size n self) rays).2 =
    (render_batches (with_batch_size m self) rays).2 ∧
  (rays ≠ [] →
   render_batches (with_batch_size m self) rays =
     ([{| TracerCall.channels := channels self;
          TracerCall.rays := rays;
          TracerCall.lod_idx := None;
          TracerCall.raymarch_type := raymarch_type self;
          TracerCall.num_steps := num_steps self;
          TracerCall.bg_color := bg_color self |}],
      r ← tracer_forward (tracer self) (nef (base self))
            {| TracerCall.channels := channels self;
               TracerCall.rays := rays;
               TracerCall.lod_idx := None;
               TracerCall.raymarch_type := raymarch_type self;
               TracerCall.num_steps := num_steps self;
               TracerCall.bg_color := bg_color self |};
      Some (rb_add rb_new r))).
Proof.
  intros Hassoc Hparts Hn Hm Hlen.
  assert (∀ b1 b2 : list Ray, b1 ≠ [] → b2 ≠ [] →
     tracer_forward (tracer self) (nef (base self)) (tracer_call self (b1 ++ b2)) =
     r1 ← tracer_forward (tracer self) (nef (base self)) (tracer_call self b1);
     r2 ← tracer_forward (tracer self) (nef (base self)) (tracer_call self b2);
     Some (rb_add r1 r2)) as Hparts'.
  { intros b1 b2. exact (Hparts (tracer_call self []) b1 b2). }
  change {| TracerCall.channels := channels self;
            TracerCall.rays := rays;
            TracerCall.lod_idx := None;
            TracerCall.raymarch_type := raymarch_type self;
            TracerCall.num_steps := num_steps self;
            TracerCall.bg_color := bg_color self |}
    with (tracer_call self rays).
  unfold render_batches, Rays_split. simpl.
  rewrite !decide_True by done. rewrite !accumulate_with_batch_size.
  destruct (decide (rays = [])) as [->|Hne].
  - by simp chunks.
  - rewrite (accumulate_chunks self Hassoc Hparts' _ rays) by done.
    rewrite (chunks_single _ rays) by (done || lia).
    rewrite accumulate_cons. simpl. split.
    + by destruct (tracer_forward _ _ _).
    + intros _. by destruct (tracer_forward _ _ _).
Qed.

(** C5, as the code has it: the constructor picks the tracer
    ([tracer_type()] when given, else [PackedRFTracer()]) and fixes
    [num_steps] (2 by default) and the movement count
    [max(num_steps // 4, 1)] whatever the mode; it is [pre_render] that
    sets the tracer's step count, on every frame: the movement count in
    interactive mode, [num_steps] in static mode. *)
Theorem step_count_selection a r :
  __init__ a = Some r →
  default PackedRFTracer (arg_tracer_type a) = Some (tracer r) ∧
  num_steps r = default 2 (arg_num_steps a) ∧
  num_steps_movement r = Z.max (num_steps r / 4) 1 ∧
  ∀ self payload, reachable a self →
    Tracer.num_steps (tracer (pre_render self payload)) =
      if FramePayload.interactive_mode payload
      then Z.max (num_steps r / 4) 1 else num_steps r.
Proof.
  intros Hinit.
  pose proof (reachable_steps a r (reach_init a r Hinit)) as (Hn & Hmove & _).
  apply init_inv in Hinit as (b & t & layers & _ & Ht & Hr).
  repeat split; [by rewrite Hr|done..|].
  intros self payload Hreach.
  destruct (reachable_steps _ _ Hreach) as (Hn' & Hmove' & _).
  simpl. rewrite Hmove', Hn', <-Hn. done.
Qed.

(** C6: [post_render] puts the tracer's step count under ["num_steps"]
    and the current channel set under ["channels"] of the last-state
    cache, leaves every other key of the cache as it was, and changes no
    other field of the renderer. *)
Theorem post_render_frame self :
  _last_state (post_render self) !! "num_steps" =
    Some (PyInt (Tracer.num_steps (tracer self))) ∧
  _last_state (post_render self) !! "channels" =
    Some (chan_val (channels self)) ∧
  delete "num_steps" (delete "channels" (_last_state (post_render self))) =
    delete "num_steps" (delete "channels" (_last_state self)) ∧
  post_render self =
    {| base := base self;
       batch_size := batch_size self;
       num_steps := num_steps self;
       num_steps_movement := num_steps_movement self;
       raymarch_type := raymarch_type self;
       bg_color := bg_color self;
       tracer := tracer self;
       render_res_x := render_res_x self;
       render_res_y := render_res_y self;
       output_width := output_width self;
       output_height := output_height self;
       far_clipping := far_clipping self;
       channels := channels self;
       _last_state := _last_state (post_render self);
       _data_layers := _data_layers self |}.
Proof.
  simpl. repeat split.
  - rewrite lookup_insert_ne by done. apply lookup_insert_eq.
  - apply lookup_insert_eq.
  - rewrite delete_insert_eq. rewrite delete_delete, delete_insert_eq.
    apply delete_delete.
Qed.

(** C7: for a positive batch size the batches [render] splits the rays
    into are, put end to end, the rays (every ray in exactly one batch,
    in order), each batch holds at least one and at most [batch_size]
    rays, every batch but the last holds [batch_size] rays, and the
    tracer is called on these batches in turn: on all of them when no
    call raises, else on those up to the one that raises. *)
Theorem render_batches_partition self rays :
  0 < batch_size self →
  ∃ batches,
    Rays_split rays (batch_size self) = Some batches ∧
    concat batches = rays ∧
    Forall (λ b, (0 < length b ≤ Z.to_nat (batch_size self))%nat) batches ∧
    (∀ full last, batches = full ++ [last] →
       Forall (λ b, length b = Z.to_nat (batch_size self)) full) ∧
    TracerCall.rays <$> tracer_calls self rays `prefix_of` batches ∧
    (is_Some (render_batches self rays).2 →
     TracerCall.rays <$> tracer_calls self rays = batches).
Proof.
  intros Hpos.
  destruct (Rays_split_spec rays _ Hpos)
    as (batches & Hsplit & Hcat & Hlen & Hfull).
  exists batches. unfold tracer_calls, render_batches. rewrite Hsplit.
  repeat split; try done.
  - apply accumulate_calls_prefix.
  - apply accumulate_calls_all.
Qed.


(** C10: [pre_render] sets the background color to ['black'] if and
    only if the clear color compares equal to [(0.0, 0.0, 0.0)], that is
    when its three components are zeros, and to ['white'] for every
    other clear color. *)
Theorem pre_render_bg_color self payload :
  (bg_color (pre_render self payload) = "black"%string ↔
   tuple3_eq (FramePayload.clear_color payload) (py_zero, py_zero, py_zero) = true) ∧
  (bg_color (pre_render self payload) = "white"%string ↔
   tuple3_eq (FramePayload.clear_color payload) (py_zero, py_zero, py_zero) = false) ∧
  (tuple3_eq (FramePayload.clear_color payload) (py_zero, py_zero, py_zero) = true ↔
   ∃ s1 s2 s3,
     FramePayload.clear_color payload = (S754_zero s1, S754_zero s2, S754_zero s3)).
Proof.
  simpl. split; [|split; [|apply tuple3_eq_zero]].
  - by destruct (tuple3_eq _ _).
  - by destruct (tuple3_eq _ _).
Qed.

(** The step count [render] hands to the tracer, and the one
    [post_render] commits. *)
Lemma tracer_calls_num_steps self payload rays :
  Forall (λ c, TracerCall.num_steps c = num_steps self)
         (tracer_calls (pre_render self payload) rays) ∧
  _last_state (post_render (pre_render self payload)) !! "num_steps" =
    Some (PyInt (if FramePayload.interactive_mode payload
                 then num_steps_movement self else num_steps self)).
Proof.
  split.
  - unfold tracer_calls, render_batches.
    destruct (Rays_split _ _); [|constructor].
    by apply accumulate_calls_Forall.
  - simpl. rewrite lookup_insert_ne by done. apply lookup_insert_eq.
Qed.

End RendererProperties.

(** ** The reference instance *)

#[global] Instance flat_buffer_shapes : RenderBufferShapes flat_buffer.
Proof.
  split; simpl; intros h w rb rb'.
  - unfold flat_reshape. case_decide; [|done]. by intros [= <-].
  - unfold flat_scale. destruct (dims rb) as [[h0 w0]|]; [|done].
    case_decide; [|done]. by intros [= <-].
Qed.

Lemma flat_add_assoc (x y z : flat_buffer) :
  flat_add (flat_add x y) z = flat_add x (flat_add y z).
Proof. unfold flat_add. simpl. by rewrite app_assoc. Qed.

Lemma flat_forward_parts (c : TracerCall.t Z) (b1 b2 : list Z) :
  flat_forward
    {| TracerCall.channels := TracerCall.channels c;
       TracerCall.rays := b1 ++ b2;
       TracerCall.lod_idx := TracerCall.lod_idx c;
       TracerCall.raymarch_type := TracerCall.raymarch_type c;
       TracerCall.num_steps := TracerCall.num_steps c;
       TracerCall.bg_color := TracerCall.bg_color c |} =
  Some (flat_add
          {| pixels := (λ ray, ray * TracerCall.num_steps c) <$> b1; dims := None |}
          {| pixels := (λ ray, ray * TracerCall.num_steps c) <$> b2; dims := None |}).
Proof. unfold flat_forward, flat_add. simpl. by rewrite fmap_app. Qed.

Lemma plain_init : __init__ plain_args = Some plain_self.
Proof. reflexivity. Qed.

(** With the reference tracer the loop of [render] returns one output
    per ray, in ray order, for every positive batch size. *)
Lemma flat_render_batches (self : @renderer accel_class () () () ())
    (rays : list Z) :
  0 < batch_size self →
  (render_batches self rays).2 =
    Some {| pixels := (λ ray, ray * num_steps self) <$> rays; dims := None |}.
Proof.
  intros Hpos. unfold render_batches, Rays_split. rewrite decide_True by done.
  destruct (decide (rays = [])) as [->|Hne]; [by simp chunks|].
  rewrite accumulate_chunks; [done|exact flat_add_assoc| |done].
  intros b1 b2 _ _. exact (flat_forward_parts (tracer_call self []) b1 b2).
Qed.

(** On the reference instance [render] returns a buffer whenever the
    batch size is positive, the rays fill the render resolution and the
    output resolution is positive. *)
Lemma flat_render_succeeds (self : @renderer accel_class () () () ())
    (rays : list Z) rx ry ow oh :
  0 < batch_size self →
  render_res_x self = Some rx → render_res_y self = Some ry →
  output_width self = Some ow → output_height self = Some oh →
  0 < rx → 0 < ry → ry * rx = Z.of_nat (length rays) →
  0 < ow → 0 < oh →
  ∃ rb, render self rays = Some rb ∧ dims rb = Some (oh, ow).
Proof.
  intros Hpos Hrx Hry How Hoh ? ? Hfill ? ?.
  unfold render, reshape_rescale.
  rewrite flat_render_batches, Hrx, Hry, How, Hoh by done. simpl.
  unfold flat_reshape. simpl. rewrite length_fmap, decide_True by done.
  simpl. case_decide as Hdiff.
  - unfold flat_scale. simpl. rewrite decide_True by done. by eexists.
  - eexists. split; [done|]. simpl.
    destruct (decide (rx = ow)) as [->|]; [|destruct Hdiff; left; congruence].
    destruct (decide (ry = oh)) as [->|]; [|destruct Hdiff; right; congruence].
    done.
Qed.

(** ** The step count of a frame *)

(** C9: every tracer invocation of [render] gets the configured
    [num_steps], whatever mode [pre_render] ran in, while [post_render]
    commits the tracer's own step count, which is the movement count
    after an interactive [pre_render]; on the default renderer an
    interactive frame is traced with 2 steps and commits 1. *)
Theorem render_steps_ignore_mode :
  (∀ (Ray Blas Model Core BaseRest Prims RB : Type)
     (ops : RenderBufferOps RB)
     (collab : Collaborators Ray Blas Model Core BaseRest Prims RB)
     (self : renderer) (payload : FramePayload.t) (rays : list Ray),
     Forall (λ c, TracerCall.num_steps c = num_steps self)
            (tracer_calls (pre_render self payload) rays) ∧
     _last_state (post_render (pre_render self payload)) !! "num_steps" =
       Some (PyInt (if FramePayload.interactive_mode payload
                    then num_steps_movement self else num_steps self))) ∧
  (∃ r, __init__ plain_args = Some r ∧
     TracerCall.num_steps <$>
       tracer_calls (with_batch_size 3 (pre_render r wide_frame)) [1; 2; 3; 4] =
       [2; 2] ∧
     _last_state (post_render (pre_render r wide_frame)) !! "num_steps" =
       Some (PyInt 1)).
Proof.
  split.
  - intros. apply tracer_calls_num_steps.
  - exists plain_self. split; [apply plain_init|]. split; by vm_compute.
Qed.

(** ** Witnesses and counterexamples *)

Lemma render_output_shape_witness :
  output_height (pre_render plain_self wide_frame) = Some 1 ∧
  output_width (pre_render plain_self wide_frame) = Some 3 ∧
  render (with_batch_size 3 (pre_render plain_self wide_frame)) [1; 2; 3; 4] =
    Some {| pixels := [2; 2; 4]; dims := Some (1, 3) |} ∧
  rb_spatial {| pixels := [2; 2; 4]; dims := Some (1, 3) |} = Some (1, 3).
Proof.
  split; [reflexivity|]. split; [reflexivity|]. split; [by vm_compute|].
  apply (render_output_shape
           (with_batch_size 3 (pre_render plain_self wide_frame)) [1; 2; 3; 4]).
  - reflexivity.
  - reflexivity.
  - by vm_compute.
Defined.

Lemma needs_refresh_spec_witness :
  _last_state (post_render (pre_render plain_self wide_frame)) !! "num_steps" =
    Some (PyInt 1) ∧
  (∃ b,
     needs_refresh (post_render (pre_render plain_self wide_frame))
                   (small_frame false ∅) = Some b ∧
     (b = true ↔
      1 < num_steps (post_render (pre_render plain_self wide_frame)) ∨
      dict_get (_last_state (post_render (pre_render plain_self wide_frame)))
               "channels" PyNone ≠
        chan_val (channels (post_render (pre_render plain_self wide_frame))))) ∧
  (∃ b,
     needs_refresh
       (pre_render (post_render (pre_render plain_self wide_frame))
                   (small_frame false ∅))
       (small_frame false ∅) = Some b ∧
     (b = true ↔
      1 < num_steps (post_render (pre_render plain_self wide_frame)) ∨
      dict_get (_last_state (post_render (pre_render plain_self wide_frame)))
               "channels" PyNone ≠
        PySet (FramePayload.channels (small_frame false ∅)))).
Proof.
  split; [by vm_compute|].
  apply (needs_refresh_spec (post_render (pre_render plain_self wide_frame))
                            (small_frame false ∅) 1).
  left. by vm_compute.
Defined.

Lemma needs_refresh_after_cycle_witness :
  reachable plain_args plain_self ∧
  needs_refresh (post_render (pre_render plain_self (small_frame false ∅)))
                (small_frame false ∅) =
    Some (false && bool_decide (2 ≤ num_steps plain_self)) ∧
  (dict_get (_last_state plain_self) "channels" PyNone ≠ PySet ∅ →
   needs_refresh (pre_render plain_self (small_frame false ∅))
                 (small_frame false ∅) = Some true).
Proof.
  split; [apply reach_init, plain_init|].
  apply (needs_refresh_after_cycle plain_args plain_self (small_frame false ∅)).
  apply reach_init, plain_init.
Defined.

(** C3 fails on the default renderer: after a whole cycle on an
    interactive frame, with the channel set unchanged, [needs_refresh]
    on the same payload returns true. *)
Lemma needs_refresh_after_interactive_cex :
  ∃ r, __init__ plain_args = Some r ∧
    channels (post_render (pre_render r (small_frame true {["rgb"%string]}))) =
      Some (FramePayload.channels (small_frame true {["rgb"%string]})) ∧
    needs_refresh
      (post_render (pre_render r (small_frame true {["rgb"%string]})))
      (small_frame true {["rgb"%string]}) = Some true.
Proof.
  exists plain_self. split; [apply plain_init|]. split; [reflexivity|].
  by vm_compute.
Qed.

(** C4 fails when only the accumulation is constrained: with buffers
    that are numbers, accumulation their sum (associative and
    commutative) and a tracer that returns 1 for every batch, five rays
    accumulate to 3 in batches of two and to 1 in one batch. *)
Lemma batches_not_equivalent_cex :
  (∀ x y z : Z,
     @rb_add Z count_buffer_ops (@rb_add Z count_buffer_ops x y) z =
     @rb_add Z count_buffer_ops x (@rb_add Z count_buffer_ops y z)) ∧
  (∀ x y : Z, @rb_add Z count_buffer_ops x y = @rb_add Z count_buffer_ops y x) ∧
  (@render_batches Z accel_class () () () () Z count_buffer_ops
     constant_collaborators (with_batch_size 2 plain_self) [1; 2; 3; 4; 5]).2 =
    Some 3 ∧
  (@render_batches Z accel_class () () () () Z count_buffer_ops
     constant_collaborators (with_batch_size 5 plain_self) [1; 2; 3; 4; 5]).2 =
    Some 1.
Proof.
  split; [intros x y z; simpl; lia|]. split; [intros x y; simpl; lia|].
  split; by vm_compute.
Qed.

Lemma batched_render_equivalent_witness :
  (render_batches (with_batch_size 2 (pre_render plain_self wide_frame))
                  [1; 2; 3; 4; 5]).2 =
    (render_batches (with_batch_size 5 (pre_render plain_self wide_frame))
                    [1; 2; 3; 4; 5]).2 ∧
  ([1; 2; 3; 4; 5] ≠ [] →
   render_batches (with_batch_size 5 (pre_render plain_self wide_frame))
                  [1; 2; 3; 4; 5] =
     ([{| TracerCall.channels := channels (pre_render plain_self wide_frame);
          TracerCall.rays := [1; 2; 3; 4; 5];
          TracerCall.lod_idx := None;
          TracerCall.raymarch_type := raymarch_type (pre_render plain_self wide_frame);
          TracerCall.num_steps := num_steps (pre_render plain_self wide_frame);
          TracerCall.bg_color := bg_color (pre_render plain_self wide_frame) |}],
      r ← tracer_forward (tracer (pre_render plain_self wide_frame))
            (nef (base (pre_render plain_self wide_frame)))
            {| TracerCall.channels := channels (pre_render plain_self wide_frame);
               TracerCall.rays := [1; 2; 3; 4; 5];
               TracerCall.lod_idx := None;
               TracerCall.raymarch_type :=
                 raymarch_type (pre_render plain_self wide_frame);
               TracerCall.num_steps := num_steps (pre_render plain_self wide_frame);
               TracerCall.bg_color := bg_color (pre_render plain_self wide_frame) |};
      Some (rb_add rb_new r))).
Proof.
  apply (batched_render_equivalent (pre_render plain_self wide_frame)
                                   [1; 2; 3; 4; 5] 2 5).
  - exact flat_add_assoc.
  - intros c b1 b2 _ _. exact (flat_forward_parts c b1 b2).
  - reflexivity.
  - reflexivity.
  - simpl. lia.
Defined.

Lemma step_count_selection_witness :
  ∃ r, __init__ odd_args = Some r ∧
    default PackedRFTracer (arg_tracer_type odd_args) = Some (tracer r) ∧
    num_steps r = default 2 (arg_num_steps odd_args) ∧
    num_steps_movement r = Z.max (num_steps r / 4) 1 ∧
    ∀ self payload, reachable odd_args self →
      Tracer.num_steps (tracer (pre_render self payload)) =
        if FramePayload.interactive_mode payload
        then Z.max (num_steps r / 4) 1 else num_steps r.
Proof.
  eexists. split; [by vm_compute|].
  apply (step_count_selection odd_args). by vm_compute.
Defined.

(** C5 fails on a constructor call with 8 steps and a tracer type whose
    instances start with 64 steps: the tracer of the new renderer has 64
    steps, neither the movement count 2 nor the 8 configured. *)
Lemma init_selects_no_step_count_cex :
  ∃ r, __init__ odd_args = Some r ∧
    num_steps r = 8 ∧
    Z.max (num_steps r / 4) 1 = 2 ∧
    Tracer.num_steps (tracer r) = 64.
Proof. eexists. split; [by vm_compute|]. by vm_compute. Qed.

Lemma render_batches_partition_witness :
  0 < batch_size (with_batch_size 2 (pre_render plain_self wide_frame)) ∧
  ∃ batches,
    Rays_split [1; 2; 3; 4; 5]
      (batch_size (with_batch_size 2 (pre_render plain_self wide_frame))) =
      Some batches ∧
    concat batches = [1; 2; 3; 4; 5] ∧
    Forall (λ b, (0 < length b ≤ Z.to_nat
              (batch_size (with_batch_size 2 (pre_render plain_self wide_frame))))%nat)
           batches ∧
    (∀ full last, batches = full ++ [last] →
       Forall (λ b, length b = Z.to_nat
                 (batch_size (with_batch_size 2 (pre_render plain_self wide_frame))))
              full) ∧
    TracerCall.rays <$>
      tracer_calls (with_batch_size 2 (pre_render plain_self wide_frame))
                   [1; 2; 3; 4; 5] `prefix_of` batches ∧
    (is_Some (render_batches
                (with_batch_size 2 (pre_render plain_self wide_frame))
                [1; 2; 3; 4; 5]).2 →
     TracerCall.rays <$>
       tracer_calls (with_batch_size 2 (pre_render plain_self wide_frame))
                    [1; 2; 3; 4; 5] = batches).
Proof.
  split; [reflexivity|].
  apply (render_batches_partition
           (with_batch_size 2 (pre_render plain_self wide_frame)) [1; 2; 3; 4; 5]).
  reflexivity.
Defined.


(** * Further properties of the renderer *)

Section LifecycleProperties.
Context {Ray Blas Model Core BaseRest Prims RB : Type}.
Context `{!RenderBufferOps RB}.
Context `{!Collaborators Ray Blas Model Core BaseRest Prims RB}.
Implicit Types (self : @renderer Blas Model Core BaseRest Prims).
Implicit Types (payload : FramePayload.t) (rays : list Ray).
Implicit Types (a : @init_args Blas Model Core).

(** ** The layer painter *)

Lemma create_layers_painter_Some (n : NeuralField.t Blas Model) painter :
  create_layers_painter n = Some painter → is_Some (NeuralField.blas n).
Proof.
  unfold create_layers_painter. by destruct (NeuralField.blas n).
Qed.

(** X2: when the painter is the one [create_layers_painter] makes for
    the renderer's field, [needs_redraw] and [regenerate_data_layers]
    are the painter's own calls on the grid's [blas], which is there and
    of the painter's kind, so they raise only if the painter does;
    without a painter they answer [True] and the empty dict. *)
Theorem created_painter_calls self :
  layers_painter (base self) = create_layers_painter (nef (base self)) →
  match layers_painter (base self) with
  | Some painter =>
      ∃ x, NeuralField.blas (nef (base self)) = Some x ∧
        (painter = AABBDatalayers ↔ blas_class x = AxisAlignedBBoxAS) ∧
        (painter = OctreeDatalayers ↔ blas_class x = OctreeAS) ∧
        needs_redraw self = painter_needs_redraw painter x ∧
        regenerate_data_layers self = painter_regenerate painter x
  | None =>
      needs_redraw self = Some true ∧ regenerate_data_layers self = Some ∅
  end.
Proof.
  intros Hp. unfold needs_redraw, regenerate_data_layers. rewrite Hp.
  unfold create_layers_painter.
  destruct (NeuralField.blas (nef (base self))) as [x|]; [|done].
  destruct (blas_class x) eqn:Hclass; [| |done].
  - exists x. rewrite Hclass. by repeat split.
  - exists x. rewrite Hclass. by repeat split.
Qed.

(** X3: once the base class has succeeded, with its painter made by
    [create_layers_painter], and the tracer is built, the constructor
    can only fail in the painter's [regenerate_data_layers]; else it
    returns a renderer on that base, with that tracer, an empty cache and
    the layers the painter gives, none without a painter. *)
Theorem init_with_created_painter a b t :
  super_init (arg_nef a) (arg_args a) (arg_kwargs a) = Some b →
  layers_painter b = create_layers_painter (nef b) →
  default PackedRFTracer (arg_tracer_type a) = Some t →
  match layers_painter b with
  | Some painter =>
      ∃ x, NeuralField.blas (nef b) = Some x ∧
        match painter_regenerate painter x with
        | Some layers =>
            ∃ r, __init__ a = Some r ∧ base r = b ∧ tracer r = t ∧
                 _last_state r = ∅ ∧ _data_layers r = layers
        | None => __init__ a = None
        end
  | None =>
      ∃ r, __init__ a = Some r ∧ base r = b ∧ tracer r = t ∧
           _last_state r = ∅ ∧ _data_layers r = ∅
  end.
Proof.
  intros Hsuper Hp Ht. unfold __init__. rewrite Hsuper, Ht. simpl.
  unfold regenerate_data_layers. simpl.
  destruct (layers_painter b) as [painter|] eqn:Hpainter.
  - symmetry in Hp. apply create_layers_painter_Some in Hp as [x Hx].
    exists x. split; [done|]. rewrite Hx. simpl.
    destruct (painter_regenerate painter x) as [layers|]; [|done].
    simpl. by eexists.
  - simpl. by eexists.
Qed.

(** ** Step counts *)

(** X4: on every renderer the lifecycle reaches, the movement step
    count is at least 1, a quarter of [num_steps] rounded down once
    [num_steps] is 4 or more, and never above a positive [num_steps];
    so after an interactive [pre_render] the tracer has at least one
    step. *)
Theorem movement_steps_bounds a self payload :
  reachable a self →
  1 ≤ num_steps_movement self ∧
  (1 ≤ num_steps self → num_steps_movement self ≤ num_steps self) ∧
  (4 ≤ num_steps self →
   4 * num_steps_movement self ≤ num_steps self < 4 * num_steps_movement self + 4) ∧
  (FramePayload.interactive_mode payload = true →
   1 ≤ Tracer.num_steps (tracer (pre_render self payload))).
Proof.
  intros Hreach. destruct (reachable_steps _ _ Hreach) as (_ & Hmove & _).
  pose proof (Z.div_mod (num_steps self) 4 ltac:(done)) as Hdiv.
  pose proof (Z.mod_pos_bound (num_steps self) 4 ltac:(done)) as Hmod.
  repeat split; try lia.
  intros Hint. simpl. rewrite Hint. lia.
Qed.

(** ** The last-state cache *)

(** X5: on every renderer the lifecycle reaches, the last-state cache is
    empty or holds exactly the keys ["num_steps"], with an [int], and
    ["channels"], with a channel set or [None]; so [needs_refresh] never
    raises. *)
Theorem cache_keys_invariant a self payload :
  reachable a self →
  (_last_state self = ∅ ∨
   ∃ n c, _last_state self !! "num_steps" = Some (PyInt n) ∧
          _last_state self !! "channels" = Some (chan_val c) ∧
          dom (_last_state self) = {["num_steps"; "channels"]}) ∧
  is_Some (needs_refresh self payload).
Proof.
  intros Hreach. split; [|by eapply reachable_needs_refresh].
  destruct (reachable_cache_keys _ _ Hreach) as [->|(n & c & ->)]; [by left|].
  right. exists n, c. split; [|split].
  - rewrite lookup_insert_ne by done. apply lookup_insert_eq.
  - apply lookup_insert_eq.
  - rewrite !dom_insert_L, dom_empty_L. set_solver.
Qed.

(** X6: with an empty cache, as the constructor leaves it, the first
    [pre_render] always makes [needs_refresh] true; before any
    [pre_render], with no channel set yet, [needs_refresh] is true
    exactly when [num_steps] is positive. *)
Theorem first_frame_needs_refresh self payload :
  _last_state self = ∅ →
  needs_refresh (pre_render self payload) payload = Some true ∧
  (channels self = None →
   needs_refresh self payload = Some (bool_decide (0 < num_steps self))).
Proof.
  intros Hempty. unfold needs_refresh, dict_get, py_ne. simpl.
  rewrite Hempty, !lookup_empty. simpl. split.
  - f_equal. apply orb_true_r.
  - intros ->. simpl. f_equal. apply orb_false_r.
Qed.

(** X7: right after [post_render] the channel set of the cache is the
    current one, so [needs_refresh] is the comparison of the tracer's
    step count with [num_steps], whatever the cache held before. *)
Theorem needs_refresh_after_post_render self payload :
  needs_refresh (post_render self) payload =
    Some (bool_decide (Tracer.num_steps (tracer self) < num_steps self)).
Proof.
  unfold needs_refresh, dict_get, py_ne. simpl.
  rewrite lookup_insert_eq, lookup_insert_ne, lookup_insert_eq by done.
  simpl. f_equal.
  rewrite (bool_decide_eq_false_2 (_ ≠ _)) by (intros Hne; by apply Hne).
  apply orb_false_r.
Qed.

(** X8: [post_render] is idempotent. *)
Theorem post_render_idempotent self :
  post_render (post_render self) = post_render self.
Proof.
  unfold post_render. simpl. f_equal.
  rewrite (insert_insert_ne _ "num_steps" "channels") by done.
  by rewrite !insert_insert_eq.
Qed.

(** ** Frames *)

(** X9: the lifecycle never changes what the constructor configured:
    the batch size, the marching policy, the data layers and the rest of
    the tracer object stay as constructed. *)
Theorem config_fixed a r self :
  __init__ a = Some r →
  reachable a self →
  batch_size self = arg_batch_size a ∧
  raymarch_type self = default "voxel"%string (arg_raymarch_type a) ∧
  _data_layers self = _data_layers r ∧
  Tracer.core <$> default PackedRFTracer (arg_tracer_type a) =
    Some (Tracer.core (tracer self)).
Proof.
  intros Hinit Hreach.
  destruct (reachable_steps _ _ Hreach) as (_ & _ & Hbatch & Hmarch).
  split; [done|]. split; [done|]. clear Hbatch Hmarch.
  induction Hreach as [r' Hr'|r' payload _ IH|r' _ IH]; [|done..].
  split; [congruence|].
  apply init_inv in Hr' as (b & t & layers & _ & Ht & ->). by rewrite Ht.
Qed.

Lemma reachable_bg_color a self :
  reachable a self →
  bg_color self = "black"%string ∨ bg_color self = "white"%string.
Proof.
  induction 1 as [r Hr|r payload _ IH|r _ IH]; [| |done].
  - apply init_inv in Hr as (b & t & layers & _ & _ & ->). by left.
  - simpl. destruct (tuple3_eq _ _); [by left|by right].
Qed.

(** X10: on every renderer the lifecycle reaches, the resolutions, the
    far clipping distance and the channel set are all unset, as before
    the first [pre_render], or all set; and the background color is
    ['black'] or ['white']. *)
Theorem frame_attributes_invariant a self :
  reachable a self →
  ((render_res_x self = None ∧ render_res_y self = None ∧
    output_width self = None ∧ output_height self = None ∧
    far_clipping self = None ∧ channels self = None) ∨
   (is_Some (render_res_x self) ∧ is_Some (render_res_y self) ∧
    is_Some (output_width self) ∧ is_Some (output_height self) ∧
    is_Some (far_clipping self) ∧ is_Some (channels self))) ∧
  (bg_color self = "black"%string ∨ bg_color self = "white"%string).
Proof.
  induction 1 as [r Hr|r payload _ IH|r _ IH]; [| |done].
  - apply init_inv in Hr as (b & t & layers & _ & _ & ->). simpl.
    split; [left|left]; done.
  - simpl. split; [right; repeat split; by eexists|].
    destruct (tuple3_eq _ _); [by left|by right].
Qed.

(** ** Rendering *)

Lemma accumulate_post_render self rb (batches : list (list Ray)) :
  accumulate (post_render self) rb batches = accumulate self rb batches.
Proof.
  revert rb. induction batches as [|b batches IH]; intros rb; [done|].
  rewrite !accumulate_cons.
  change (tracer_call (post_render self) b) with (tracer_call self b).
  change (tracer (post_render self)) with (tracer self).
  change (base (post_render self)) with (base self).
  destruct (tracer_forward _ _ _) as [r|]; [|done]. by rewrite IH.
Qed.

(** X11: [render] does not read the last-state cache: after
    [post_render] it makes the same tracer calls and returns the same
    buffer. *)
Theorem render_ignores_cache self rays :
  tracer_calls (post_render self) rays = tracer_calls self rays ∧
  render (post_render self) rays = render self rays.
Proof.
  unfold tracer_calls, render, render_batches. simpl.
  destruct (Rays_split rays (batch_size self)) as [batches|]; [|done].
  by rewrite accumulate_post_render.
Qed.

(** X12: every tracer call of a [render] on a reachable renderer gets
    no level of detail, the marching policy and step count fixed by the
    constructor, the renderer's current channel set, and ['black'] or
    ['white'] as background. *)
Theorem tracer_calls_arguments a self rays :
  reachable a self →
  Forall (λ c,
      TracerCall.lod_idx c = None ∧
      TracerCall.raymarch_type c = default "voxel"%string (arg_raymarch_type a) ∧
      TracerCall.num_steps c = default 2 (arg_num_steps a) ∧
      TracerCall.channels c = channels self ∧
      (TracerCall.bg_color c = "black"%string ∨
       TracerCall.bg_color c = "white"%string))
    (tracer_calls self rays).
Proof.
  intros Hreach.
  destruct (reachable_steps _ _ Hreach) as (Hn & _ & _ & Hmarch).
  pose proof (reachable_bg_color _ _ Hreach) as Hbg.
  unfold tracer_calls, render_batches.
  destruct (Rays_split _ _); [|constructor].
  apply accumulate_calls_Forall. intros b. by simpl.
Qed.

(** X13: after [pre_render] of a frame whose render resolution is the
    camera's size, [render] returns the accumulated buffer reshaped and
    never scales it; for any other frame it returns the reshaped buffer
    scaled to the camera's size. *)
Theorem render_scales_iff_resolutions_differ self payload rays :
  render (pre_render self payload) rays =
    acc ← (render_batches (pre_render self payload) rays).2;
    rb ← rb_reshape (FramePayload.render_res_y payload)
                    (FramePayload.render_res_x payload) acc;
    if decide (FramePayload.render_res_x payload =
                 Camera.width (FramePayload.camera payload) ∧
               FramePayload.render_res_y payload =
                 Camera.height (FramePayload.camera payload))
    then Some rb
    else rb_scale (Camera.height (FramePayload.camera payload))
                  (Camera.width (FramePayload.camera payload)) rb.
Proof.
  unfold render, reshape_rescale.
  destruct (render_batches (pre_render self payload) rays).2 as [acc|]; [|done].
  simpl. destruct (rb_reshape _ _ acc) as [rb|]; [|done]. simpl.
  destruct (decide (FramePayload.render_res_x payload =
                    Camera.width (FramePayload.camera payload))) as [Hx|Hx];
    destruct (decide (FramePayload.render_res_y payload =
                      Camera.height (FramePayload.camera payload))) as [Hy|Hy].
  - rewrite Hx, Hy, decide_False, decide_True; [done..|].
    by intros [?|?].
  - rewrite decide_True, decide_False; [done|by intros [_ ?]|].
    right. congruence.
  - rewrite decide_True, decide_False; [done|by intros [? _]|].
    left. congruence.
  - rewrite decide_True, decide_False; [done|by intros [? _]|].
    left. congruence.
Qed.

End LifecycleProperties.

(** ** Witnesses of the further properties *)

Lemma created_painter_calls_witness :
  match layers_painter (base plain_self) with
  | Some painter =>
      ∃ x, NeuralField.blas (nef (base plain_self)) = Some x ∧
        (painter = AABBDatalayers ↔ blas_class x = AxisAlignedBBoxAS) ∧
        (painter = OctreeDatalayers ↔ blas_class x = OctreeAS) ∧
        needs_redraw plain_self = painter_needs_redraw painter x ∧
        regenerate_data_layers plain_self = painter_regenerate painter x
  | None =>
      needs_redraw plain_self = Some true ∧
      regenerate_data_layers plain_self = Some ∅
  end.
Proof. apply (created_painter_calls plain_self). reflexivity. Defined.

Lemma init_with_created_painter_witness :
  match layers_painter (mk_base plain_nef (Some OctreeDatalayers) ()) with
  | Some painter =>
      ∃ x, NeuralField.blas (nef (mk_base plain_nef (Some OctreeDatalayers) ())) =
             Some x ∧
        match painter_regenerate painter x with
        | Some layers =>
            ∃ r, __init__ plain_args = Some r ∧
                 base r = mk_base plain_nef (Some OctreeDatalayers) () ∧
                 tracer r = Tracer.mk 64 () ∧
                 _last_state r = ∅ ∧ _data_layers r = layers
        | None => __init__ plain_args = None
        end
  | None =>
      ∃ r, __init__ plain_args = Some r ∧
           base r = mk_base plain_nef (Some OctreeDatalayers) () ∧
           tracer r = Tracer.mk 64 () ∧
           _last_state r = ∅ ∧ _data_layers r = ∅
  end.
Proof.
  apply (init_with_created_painter plain_args
           (mk_base plain_nef (Some OctreeDatalayers) ()) (Tracer.mk 64 ()));
    reflexivity.
Defined.

Lemma movement_steps_bounds_witness :
  1 ≤ num_steps_movement (post_render (pre_render plain_self wide_frame)) ∧
  (1 ≤ num_steps (post_render (pre_render plain_self wide_frame)) →
   num_steps_movement (post_render (pre_render plain_self wide_frame)) ≤
     num_steps (post_render (pre_render plain_self wide_frame))) ∧
  (4 ≤ num_steps (post_render (pre_render plain_self wide_frame)) →
   4 * num_steps_movement (post_render (pre_render plain_self wide_frame)) ≤
     num_steps (post_render (pre_render plain_self wide_frame)) <
     4 * num_steps_movement (post_render (pre_render plain_self wide_frame)) + 4) ∧
  (FramePayload.interactive_mode wide_frame = true →
   1 ≤ Tracer.num_steps
         (tracer (pre_render (post_render (pre_render plain_self wide_frame))
                             wide_frame))).
Proof.
  apply (movement_steps_bounds plain_args
           (post_render (pre_render plain_self wide_frame)) wide_frame).
  apply reach_post_render, reach_pre_render, reach_init. reflexivity.
Defined.

Lemma cache_keys_invariant_witness :
  (_last_state (post_render (pre_render plain_self wide_frame)) = ∅ ∨
   ∃ n c,
     _last_state (post_render (pre_render plain_self wide_frame)) !! "num_steps" =
       Some (PyInt n) ∧
     _last_state (post_render (pre_render plain_self wide_frame)) !! "channels" =
       Some (chan_val c) ∧
     dom (_last_state (post_render (pre_render plain_self wide_frame))) =
       {["num_steps"; "channels"]}) ∧
  is_Some (needs_refresh (post_render (pre_render plain_self wide_frame))
                         wide_frame).
Proof.
  apply (cache_keys_invariant plain_args
           (post_render (pre_render plain_self wide_frame)) wide_frame).
  apply reach_post_render, reach_pre_render, reach_init. reflexivity.
Defined.

Lemma first_frame_needs_refresh_witness :
  needs_refresh (pre_render plain_self wide_frame) wide_frame = Some true ∧
  (channels plain_self = None →
   needs_refresh plain_self wide_frame =
     Some (bool_decide (0 < num_steps plain_self))).
Proof. apply (first_frame_needs_refresh plain_self wide_frame). reflexivity. Defined.

Lemma config_fixed_witness :
  batch_size (post_render (pre_render plain_self wide_frame)) =
    arg_batch_size plain_args ∧
  raymarch_type (post_render (pre_render plain_self wide_frame)) =
    default "voxel"%string (arg_raymarch_type plain_args) ∧
  _data_layers (post_render (pre_render plain_self wide_frame)) =
    _data_layers plain_self ∧
  Tracer.core <$> default PackedRFTracer (arg_tracer_type plain_args) =
    Some (Tracer.core (tracer (post_render (pre_render plain_self wide_frame)))).
Proof.
  apply (config_fixed plain_args plain_self
           (post_render (pre_render plain_self wide_frame))).
  - reflexivity.
  - apply reach_post_render, reach_pre_render, reach_init. reflexivity.
Defined.

Lemma frame_attributes_invariant_witness :
  ((render_res_x (pre_render plain_self wide_frame) = None ∧
    render_res_y (pre_render plain_self wide_frame) = None ∧
    output_width (pre_render plain_self wide_frame) = None ∧
    output_height (pre_render plain_self wide_frame) = None ∧
    far_clipping (pre_render plain_self wide_frame) = None ∧
    channels (pre_render plain_self wide_frame) = None) ∨
   (is_Some (render_res_x (pre_render plain_self wide_frame)) ∧
    is_Some (render_res_y (pre_render plain_self wide_frame)) ∧
    is_Some (output_width (pre_render plain_self wide_frame)) ∧
    is_Some (output_height (pre_render plain_self wide_frame)) ∧
    is_Some (far_clipping (pre_render plain_self wide_frame)) ∧
    is_Some (channels (pre_render plain_self wide_frame)))) ∧
  (bg_color (pre_render plain_self wide_frame) = "black"%string ∨
   bg_color (pre_render plain_self wide_frame) = "white"%string).
Proof.
  apply (frame_attributes_invariant plain_args (pre_render plain_self wide_frame)).
  apply reach_pre_render, reach_init. reflexivity.
Defined.

Lemma tracer_calls_arguments_witness :
  Forall (λ c,
      TracerCall.lod_idx c = None ∧
      TracerCall.raymarch_type c =
        default "voxel"%string (arg_raymarch_type plain_args) ∧
      TracerCall.num_steps c = default 2 (arg_num_steps plain_args) ∧
      TracerCall.channels c = channels (pre_render plain_self wide_frame) ∧
      (TracerCall.bg_color c = "black"%string ∨
       TracerCall.bg_color c = "white"%string))
    (tracer_calls (pre_render plain_self wide_frame) [1; 2; 3; 4]).
Proof.
  apply (tracer_calls_arguments plain_args (pre_render plain_self wide_frame)
                                [1; 2; 3; 4]).
  apply reach_pre_render, reach_init. reflexivity.
Defined.
